(** * Search1API tool server: a shallow embedding of [src/server.py]

    The server exposes three tools ([search], [news], [crawl]) and forwards
    every invocation to one upstream HTTP API.  This development embeds

    - the Python values the handlers manipulate (decoded JSON, [json.dumps],
      truthiness, subscripting),
    - the effects of the handlers (calls of [client.post], calls of
      [print] in the [except] clause, raised exceptions) as a small state-and-error
      monad over an explicit upstream, and
    - the functions [handle_list_tools], [make_search_request],
      [handle_call_tool] and [start_server],

    and proves the properties of the dispatch adapter about them. *)

From Stdlib Require Import ZArith String Ascii List Lia.
From stdpp Require Import base strings gmap pretty.
Import ListNotations.

Set Warnings "-register-all".

Local Open Scope Z_scope.
Local Open Scope string_scope.

(** ** Python values *)

Module Py.

(** A Python [float] is observed by the server in two ways only: through
    its truth value ([not x]) and through the text [json.dumps] writes for
    it ([float.__repr__], or [NaN], [Infinity], [-Infinity]). *)
Record pyfloat := PyFloat {
  float_repr : string;
  float_is_zero : bool
}.

(** The values that [json.loads] builds and [json.dumps] accepts.  A [str]
    is a sequence of code points below 256, one per character.  A [dict] is
    kept as an association list because Python dicts remember insertion
    order and [json.dumps] writes the entries in that order; the keys of a
    dict are pairwise distinct. *)
Inductive pyval : Type :=
| PNone
| PBool (b : bool)
| PInt (z : Z)
| PFloat (f : pyfloat)
| PStr (s : string)
| PList (l : list pyval)
| PDict (d : list (string * pyval)).

(** [bool(v)]: the truth value used by [if not v]. *)
Definition truthy (v : pyval) : bool :=
  match v with
  | PNone => false
  | PBool b => b
  | PInt z => negb (z =? 0)%Z
  | PFloat f => negb (float_is_zero f)
  | PStr s => negb (String.eqb s EmptyString)
  | PList l => match l with [] => false | _ :: _ => true end
  | PDict d => match d with [] => false | _ :: _ => true end
  end.

(** [d[k]] on the entries of a dict. *)
Fixpoint assoc (k : string) (d : list (string * pyval)) : option pyval :=
  match d with
  | [] => None
  | (k', v) :: d' => if String.eqb k k' then Some v else assoc k d'
  end.

(** *** [json.dumps] with its default arguments *)

Definition hex_digit (n : N) : ascii :=
  match n with
  | 0 => "0" | 1 => "1" | 2 => "2" | 3 => "3" | 4 => "4" | 5 => "5"
  | 6 => "6" | 7 => "7" | 8 => "8" | 9 => "9" | 10 => "a" | 11 => "b"
  | 12 => "c" | 13 => "d" | 14 => "e" | _ => "f"
  end%N%char.

Definition backslash : ascii := "092"%char.
Definition dquote : ascii := "034"%char.

(** [ESCAPE_ASCII] of [json.encoder]: the backslash, the double quote and
    every character outside the printable ASCII range are escaped. *)
Definition escape_char (c : ascii) : string :=
  let n := N_of_ascii c in
  let esc (x : ascii) := String backslash (String x EmptyString) in
  if (n =? 34)%N then esc dquote
  else if (n =? 92)%N then esc backslash
  else if (n =? 8)%N then esc "b"%char
  else if (n =? 12)%N then esc "f"%char
  else if (n =? 10)%N then esc "n"%char
  else if (n =? 13)%N then esc "r"%char
  else if (n =? 9)%N then esc "t"%char
  else if ((32 <=? n) && (n <=? 126))%N then String c EmptyString
  else String backslash
         (String "u" (String "0" (String "0"
           (String (hex_digit (n / 16)) (String (hex_digit (n mod 16)) EmptyString))))).

Fixpoint escape_string (s : string) : string :=
  match s with
  | EmptyString => EmptyString
  | String c s' => escape_char c +:+ escape_string s'
  end.

Definition encode_basestring_ascii (s : string) : string :=
  String dquote (escape_string s +:+ String dquote EmptyString).

Fixpoint join (sep : string) (l : list string) : string :=
  match l with
  | [] => EmptyString
  | [x] => x
  | x :: l' => x +:+ sep +:+ join sep l'
  end.

Fixpoint json_dumps (v : pyval) : string :=
  match v with
  | PNone => "null"
  | PBool true => "true"
  | PBool false => "false"
  | PInt z => pretty z
  | PFloat f => float_repr f
  | PStr s => encode_basestring_ascii s
  | PList l => "[" +:+ join ", " (map json_dumps l) +:+ "]"
  | PDict d =>
      "{" +:+ join ", "
                (map (fun kv => encode_basestring_ascii (fst kv) +:+ ": " +:+ json_dumps (snd kv)) d)
          +:+ "}"
  end.

End Py.
Export Py.

(** ** Effects: the upstream API, the calls made to it, and exceptions *)

Module Effects.

(** The exceptions that can run through the handlers.  The last two are
    subclasses of [BaseException] only: a task cancelled while it waits at
    [await client.post(...)] sees [asyncio.CancelledError] raised there. *)
Inductive exn : Type :=
| TimeoutException            (* httpx.TimeoutException: the 30 s budget ran out *)
| TransportError (msg : string) (* any other httpx.TransportError *)
| HTTPStatusError (status : Z)  (* raised by [response.raise_for_status()] *)
| JSONDecodeError               (* raised by [response.json()] *)
| KeyError (key : string)
| TypeError
| ValueError (msg : string)
| CancelledError                (* asyncio.CancelledError *)
| KeyboardInterrupt.

(** [isinstance(e, Exception)]: what [except Exception] catches. *)
Definition is_exception (e : exn) : bool :=
  match e with
  | CancelledError | KeyboardInterrupt => false
  | _ => true
  end.

(** One call of [client.post(url, headers=..., json=..., timeout=...)]. *)
Record post_request := PostRequest {
  url : string;
  headers : list (string * string);
  json : pyval;
  timeout : Z
}.

(** What [httpx] hands back: the status code, and the decoded body
    ([None] when the body is not JSON, so that [response.json()] raises). *)
Record response := Response {
  status_code : Z;
  body : option pyval
}.

Inductive http_outcome : Type :=
| PostRaises (e : exn)
| Responds (r : response).

(** The upstream provider together with the network in front of it. *)
Definition upstream : Type := post_request -> http_outcome.

(** The observable trace of one process: the calls of [client.post] in the
    order they were made, and the calls of [print] in the order they were
    made (entry [e] stands for one call
    [print(f"API request error: {str(e)}")]; the text of one call can span
    several lines, as [str] of an [HTTPStatusError] does). *)
Record world := World {
  posts : list post_request;
  printed : list exn
}.

Inductive result (A : Type) : Type :=
| Returned (a : A)
| Raised (e : exn).
Arguments Returned {A} a.
Arguments Raised {A} e.

(** A computation reads the upstream, threads the trace, and either
    returns or raises. *)
Definition M (A : Type) : Type := upstream -> world -> result A * world.

Definition ret {A} (a : A) : M A := fun _ w => (Returned a, w).

Definition raise {A} (e : exn) : M A := fun _ w => (Raised e, w).

Definition bind {A B} (m : M A) (k : A -> M B) : M B :=
  fun up w =>
    match m up w with
    | (Returned a, w') => k a up w'
    | (Raised e, w') => (Raised e, w')
    end.

(** [try: body / except Exception as e: handler e]: what is not an
    [Exception] passes through. *)
Definition try_except {A} (body : M A) (handler : exn -> M A) : M A :=
  fun up w =>
    match body up w with
    | (Returned a, w') => (Returned a, w')
    | (Raised e, w') =>
        if is_exception e then handler e up w' else (Raised e, w')
    end.

#[global] Instance M_ret : MRet M := @ret.
#[global] Instance M_bind : MBind M := fun A B k m => bind m k.

(** [await client.post(...)]: the call is recorded, then the upstream
    answers or the transport raises. *)
Definition client_post (u : string) (h : list (string * string)) (j : pyval) (t : Z)
  : M response :=
  fun up w =>
    let rq := PostRequest u h j t in
    let w' := World (posts w ++ [rq]) (printed w) in
    match up rq with
    | PostRaises e => (Raised e, w')
    | Responds r => (Returned r, w')
    end.

(** [httpx.Response.is_success]. *)
Definition is_success (r : response) : bool :=
  (200 <=? status_code r)%Z && (status_code r <=? 299)%Z.

(** [response.raise_for_status()]: raises unless the status is 2xx. *)
Definition raise_for_status (r : response) : M unit :=
  if is_success r then ret tt else raise (HTTPStatusError (status_code r)).

(** [response.json()]. *)
Definition response_json (r : response) : M pyval :=
  match body r with
  | Some v => ret v
  | None => raise JSONDecodeError
  end.

(** [print(f"API request error: {str(e)}")]. *)
Definition print_api_request_error (e : exn) : M unit :=
  fun _ w => (Returned tt, World (posts w) (printed w ++ [e])).

(** [v[k]] for a string [k]: a dict answers or raises [KeyError]; every
    other value raises [TypeError]. *)
Definition getitem (v : pyval) (k : string) : M pyval :=
  match v with
  | PDict d =>
      match assoc k d with
      | Some x => ret x
      | None => raise (KeyError k)
      end
  | _ => raise TypeError
  end.

(** The [arguments] mapping of a tool call: [k in d], [d[k]], [d.get(k, x)]. *)
Definition dict_contains (k : string) (d : gmap string pyval) : bool :=
  match d !! k with Some _ => true | None => false end.

Definition dict_getitem (d : gmap string pyval) (k : string) : M pyval :=
  match d !! k with
  | Some v => ret v
  | None => raise (KeyError k)
  end.

Definition dict_get (d : gmap string pyval) (k : string) (default : pyval) : pyval :=
  match d !! k with
  | Some v => v
  | None => default
  end.

End Effects.
Export Effects.

(** ** The server: [src/server.py] *)

Module Server.

(** [mcp.types.Tool] and [mcp.types.TextContent], with the fields the
    server fills in. *)
Record Tool := MkTool {
  name : string;
  description : string;
  inputSchema : pyval
}.

Record TextContent := MkTextContent {
  type : string;
  text : string
}.

Definition API_BASE : string := "api.search1api.com".

(** The schema shared, up to the description of [query], by [search] and
    [news]. *)
Definition query_schema (query_description : string) : pyval :=
  PDict [
    ("type", PStr "object");
    ("properties", PDict [
       ("query", PDict [
          ("type", PStr "string");
          ("description", PStr query_description)]);
       ("max_results", PDict [
          ("type", PStr "number");
          ("description", PStr "Maximum number of results to return (default: 10)");
          ("default", PInt 10);
          ("minimum", PInt 1);
          ("maximum", PInt 50)]);
       ("search_service", PDict [
          ("type", PStr "string");
          ("description", PStr "Search service to use (default: google)");
          ("default", PStr "google")])]);
    ("required", PList [PStr "query"])
  ].

Definition url_schema : pyval :=
  PDict [
    ("type", PStr "object");
    ("properties", PDict [
       ("url", PDict [
          ("type", PStr "string");
          ("description", PStr "URL to crawl")])]);
    ("required", PList [PStr "url"])
  ].

(** [handle_list_tools]: the sitemap descriptor is commented out in the
    source and is not part of the list. *)
Definition handle_list_tools : M (list Tool) :=
  mret [
    MkTool "search" "A fast way to search the world" (query_schema "Search query");
    MkTool "news" "Search for news articles" (query_schema "News search query");
    MkTool "crawl" "Extract content from URL" url_schema
  ].

(** The names listed under the [required] key of a descriptor's schema. *)
Definition required_fields (t : Tool) : list string :=
  match inputSchema t with
  | PDict d =>
      match assoc "required" d with
      | Some (PList l) =>
          flat_map (fun v => match v with PStr s => [s] | _ => [] end) l
      | _ => []
      end
  | _ => []
  end.

Section WithConfiguration.

(** [API_KEY = os.getenv("SEARCH1API_KEY")]: absent when the variable is
    not set. *)
Variable API_KEY : option string.

(** [f'{API_KEY}']. *)
Definition format_api_key : string :=
  match API_KEY with
  | Some k => k
  | None => "None"
  end.

(** [make_search_request(client, endpoint, data)].  The client is a fresh
    [httpx.AsyncClient] without state of its own; it is left implicit. *)
Definition make_search_request (endpoint : string) (data : pyval) : M pyval :=
  let headers := [
    ("Authorization", "Bearer " +:+ format_api_key);
    ("Content-Type", "application/json")
  ] in
  try_except
    (response ← client_post ("https://" +:+ API_BASE +:+ endpoint) headers data 30;
     _ ← raise_for_status response;
     response_json response)
    (fun e =>
       _ ← print_api_request_error e;
       mret PNone).

Definition text_content (s : string) : list TextContent :=
  [MkTextContent "text" s].

(** [handle_call_tool(name, arguments)]. *)
Definition handle_call_tool (name : string) (arguments : option (gmap string pyval))
  : M (list TextContent) :=
  match arguments with
  | None => mret (text_content "No arguments provided")
  | Some arguments =>
      if String.eqb name "search" then
        if negb (dict_contains "query" arguments) then
          mret (text_content "Search query is required")
        else
          query ← dict_getitem arguments "query";
          let request_data := PDict [
            ("query", query);
            ("max_results", dict_get arguments "max_results" (PInt 10));
            ("search_service", dict_get arguments "search_service" (PStr "google"))
          ] in
          search_data ← make_search_request "/search" request_data;
          if negb (truthy search_data) then
            mret (text_content "Failed to retrieve search results")
          else
            results ← getitem search_data "results";
            mret (text_content (json_dumps results))
      else if String.eqb name "news" then
        if negb (dict_contains "query" arguments) then
          mret (text_content "News search query is required")
        else
          query ← dict_getitem arguments "query";
          let request_data := PDict [
            ("query", query);
            ("max_results", dict_get arguments "max_results" (PInt 10));
            ("search_service", dict_get arguments "search_service" (PStr "google"))
          ] in
          news_data ← make_search_request "/news" request_data;
          if negb (truthy news_data) then
            mret (text_content "Failed to retrieve news results")
          else
            results ← getitem news_data "results";
            mret (text_content (json_dumps results))
      else if String.eqb name "crawl" then
        if negb (dict_contains "url" arguments) then
          mret (text_content "URL is required")
        else
          u ← dict_getitem arguments "url";
          let request_data := PDict [("url", u)] in
          crawl_data ← make_search_request "/crawl" request_data;
          if negb (truthy crawl_data) then
            mret (text_content "Failed to crawl URL")
          else
            results ← getitem crawl_data "results";
            mret (text_content (json_dumps results))
      else if String.eqb name "sitemap" then
        if negb (dict_contains "url" arguments) then
          mret (text_content "URL is required")
        else
          u ← dict_getitem arguments "url";
          let request_data := PDict [("url", u)] in
          sitemap_data ← make_search_request "/sitemap" request_data;
          if negb (truthy sitemap_data) then
            mret (text_content "Failed to retrieve sitemap")
          else
            links ← getitem sitemap_data "links";
            mret (text_content (json_dumps links))
      else
        raise (ValueError ("Unknown tool: " +:+ name))
  end.

(** What [start_server] hands to [uvicorn.run(app, host=host, port=port)];
    the call serves until the process ends. *)
Record uvicorn_run := UvicornRun {
  run_host : string;
  run_port : Z
}.

(** [API_KEY] as the Python value it is: a [str] or [None]. *)
Definition api_key_value : pyval :=
  match API_KEY with
  | Some k => PStr k
  | None => PNone
  end.

(** [start_server(host, port)]. *)
Definition start_server (host : string) (port : Z) : result uvicorn_run :=
  if negb (truthy api_key_value) then
    Raised (ValueError "SEARCH1API_KEY environment variable is not set")
  else
    Returned (UvicornRun host port).

End WithConfiguration.

(** The default arguments of [start_server], used by the script entry. *)
Definition default_host : string := "0.0.0.0".
Definition default_port : Z := 3001.

End Server.
Export Server.

(** ** Vocabulary of the statements *)

(** The single call of [client.post] that [make_search_request] makes for
    an endpoint and a body. *)
Definition api_request (API_KEY : option string) (endpoint : string) (data : pyval)
  : post_request :=
  PostRequest ("https://" +:+ API_BASE +:+ endpoint)
    [("Authorization", "Bearer " +:+ format_api_key API_KEY);
     ("Content-Type", "application/json")]
    data 30.

(** The body that the [search] and [news] branches build from [arguments]
    once [query] is known to be present. *)
Definition query_body (arguments : gmap string pyval) (query : pyval) : pyval :=
  PDict [
    ("query", query);
    ("max_results", dict_get arguments "max_results" (PInt 10));
    ("search_service", dict_get arguments "search_service" (PStr "google"))
  ].

(** The upstream call did not yield a decoded body: the transport raised
    an [Exception] (a timeout included), the status is not 2xx, or the body
    is not JSON. *)
Definition upstream_failed (o : http_outcome) : bool :=
  match o with
  | PostRaises e => is_exception e
  | Responds r =>
      negb (is_success r) || match body r with Some _ => false | None => true end
  end.



(** An invocation carries every field that a descriptor marks as required. *)
Definition satisfies_required (t : Tool) (arguments : option (gmap string pyval)) : bool :=
  match arguments with
  | None => false
  | Some m => forallb (fun k => dict_contains k m) (required_fields t)
  end.

(** The messages of the validation step, before any provider call. *)
Definition validation_messages : list string :=
  ["No arguments provided"; "Search query is required";
   "News search query is required"; "URL is required"].

(** The tail shared by the four branches of [handle_call_tool]: what is
    made of the value that [make_search_request] returned. *)
Definition relay (failure field : string) (data : pyval) : M (list TextContent) :=
  if negb (truthy data) then
    mret (text_content failure)
  else
    results ← getitem data field;
    mret (text_content (json_dumps results)).


(** Concrete upstreams and arguments used to exercise the statements. *)
Definition fresh : world := World [] [].

Definition always_times_out : upstream := fun _ => PostRaises TimeoutException.

Definition always_answers (status : Z) (v : pyval) : upstream :=
  fun _ => Responds (Response status (Some v)).

Definition error_payload : pyval := PDict [("error", PStr "quota exceeded")].

Definition only_query : gmap string pyval := {[ "query" := PStr "q" ]}.

Definition only_url : gmap string pyval := {[ "url" := PStr "http://x" ]}.

Definition query_and_url : gmap string pyval :=
  <[ "query" := PStr "q" ]> only_url.

Definition oversized_query : gmap string pyval :=
  <[ "max_results" := PInt 1000 ]> (<[ "search_service" := PList [] ]> only_query).

(** The four branches of [handle_call_tool] side by side: the key tested
    with [not in], the text returned when it is absent, the endpoint, the
    text returned when the provider gave nothing, and the key read from the
    provider's answer. *)
Record branch := Branch {
  b_required : string;
  b_missing : string;
  b_endpoint : string;
  b_failure : string;
  b_field : string
}.

Definition branch_of (name : string) : option branch :=
  if String.eqb name "search" then
    Some (Branch "query" "Search query is required" "/search"
            "Failed to retrieve search results" "results")
  else if String.eqb name "news" then
    Some (Branch "query" "News search query is required" "/news"
            "Failed to retrieve news results" "results")
  else if String.eqb name "crawl" then
    Some (Branch "url" "URL is required" "/crawl"
            "Failed to crawl URL" "results")
  else if String.eqb name "sitemap" then
    Some (Branch "url" "URL is required" "/sitemap"
            "Failed to retrieve sitemap" "links")
  else None.

(** The request body of a branch, given the value of its required key. *)
Definition branch_body (b : branch) (arguments : gmap string pyval) (x : pyval)
  : pyval :=
  if String.eqb (b_required b) "query" then query_body arguments x
  else PDict [("url", x)].

(** What [relay] comes to, as a value: it touches neither the upstream nor
    the trace. *)
Definition relay_result (failure field : string) (data : pyval)
  : result (list TextContent) :=
  if truthy data then
    match data with
    | PDict d =>
        match assoc field d with
        | Some x => Returned (text_content (json_dumps x))
        | None => Raised (KeyError field)
        end
    | _ => Raised TypeError
    end
  else Returned (text_content failure).

(** The exception that the [except] clause of [make_search_request]
    catches for an outcome of the call, if any: the one [client.post]
    raised, the [HTTPStatusError] of [raise_for_status] for a status
    outside 2xx, or the decoding error of [response.json()]. *)
Definition failure_cause (o : http_outcome) : option exn :=
  match o with
  | PostRaises e => if is_exception e then Some e else None
  | Responds r =>
      if is_success r then
        match body r with
        | Some _ => None
        | None => Some JSONDecodeError
        end
      else Some (HTTPStatusError (status_code r))
  end.

(** Arguments with an out-of-range [max_results] and no [search_service]. *)
Definition large_max_results : gmap string pyval :=
  <[ "max_results" := PInt 1000 ]> only_query.

(** An upstream in which each endpoint answers in its own way: an empty
    object from [/news] and [/crawl], hits from every other endpoint. *)
Definition empty_news_and_crawl : upstream :=
  fun rq =>
    if String.eqb (url rq) ("https://" +:+ API_BASE +:+ "/news")
       || String.eqb (url rq) ("https://" +:+ API_BASE +:+ "/crawl")
    then Responds (Response 200 (Some (PDict [])))
    else Responds (Response 200 (Some (PDict [("results", PList [PStr "hit"])]))).


(** The texts returned when the provider gave nothing usable. *)
Definition failure_messages : list string :=
  ["Failed to retrieve search results"; "Failed to retrieve news results";
   "Failed to crawl URL"; "Failed to retrieve sitemap"].

(** The [default] that a descriptor declares for property [k]. *)
Definition schema_default (t : Tool) (k : string) : option pyval :=
  match inputSchema t with
  | PDict d =>
      match assoc "properties" d with
      | Some (PDict props) =>
          match assoc k props with
          | Some (PDict decl) => assoc "default" decl
          | _ => None
          end
      | _ => None
      end
  | _ => None
  end.

(** The value of key [k] in the JSON body of a request. *)
Definition body_field (rq : post_request) (k : string) : option pyval :=
  match json rq with
  | PDict d => assoc k d
  | _ => None
  end.

Definition is_float (v : pyval) : bool :=
  match v with
  | PFloat _ => true
  | _ => false
  end.

(** The first character of a text, if any. *)
Definition head_char (s : string) : option ascii :=
  match s with
  | EmptyString => None
  | String c _ => Some c
  end.

Definition is_digit (c : ascii) : bool :=
  let n := N_of_ascii c in ((48 <=? n) && (n <=? 57))%N.

(** Arguments with a key that no branch reads. *)
Definition url_with_noise : gmap string pyval :=
  <[ "max_results" := PInt 3 ]> (<[ "depth" := PInt 2 ]> only_url).

Definition query_with_noise : gmap string pyval :=
  <[ "page" := PInt 2 ]> only_query.

(** ** Properties *)

(** *** The monad and [make_search_request] *)

Ltac unfold_monad :=
  unfold mbind, M_bind, bind, mret, M_ret, ret, raise, try_except in *.

Ltac step_handler :=
  unfold handle_call_tool, dict_contains, dict_getitem, dict_get, query_body;
  unfold_monad; cbn [String.eqb Ascii.eqb Bool.eqb negb].

Section MakeSearchRequest.

Variable API_KEY : option string.

(** [make_search_request] makes exactly one call, and turns every failure
    of it that is an [Exception] into [None] after printing the cause. *)
Lemma make_search_request_run endpoint data up w :
  make_search_request API_KEY endpoint data up w =
  let rq := api_request API_KEY endpoint data in
  let sent := (posts w ++ [rq])%list in
  match up rq with
  | PostRaises e =>
      if is_exception e then (Returned PNone, World sent (printed w ++ [e]))
      else (Raised e, World sent (printed w))
  | Responds r =>
      if is_success r then
        match body r with
        | Some v => (Returned v, World sent (printed w))
        | None => (Returned PNone, World sent (printed w ++ [JSONDecodeError]))
        end
      else (Returned PNone, World sent (printed w ++ [HTTPStatusError (status_code r)]))
  end.
Proof.
  unfold make_search_request, api_request, client_post, raise_for_status,
    response_json, print_api_request_error.
  unfold_monad. cbn.
  destruct (up _) as [e | r]; cbn; [destruct (is_exception e); reflexivity |].
  destruct (is_success r); cbn; [| reflexivity].
  destruct (body r); reflexivity.
Qed.

(** It returns whenever the call answered, whatever the answer. *)
Lemma make_search_request_returns endpoint data up w r :
  up (api_request API_KEY endpoint data) = Responds r ->
  exists v w', make_search_request API_KEY endpoint data up w = (Returned v, w').
Proof.
  intros Hup. rewrite make_search_request_run. cbn. rewrite Hup.
  destruct (is_success r); [| eauto].
  destruct (body r); eauto.
Qed.

(** A failed upstream call yields [None]. *)
Lemma make_search_request_failed endpoint data up w :
  upstream_failed (up (api_request API_KEY endpoint data)) = true ->
  fst (make_search_request API_KEY endpoint data up w) = Returned PNone.
Proof.
  rewrite make_search_request_run. cbn. unfold upstream_failed.
  destruct (up _) as [e | r]; [intros ->; reflexivity |].
  destruct (is_success r); cbn; [| reflexivity].
  destruct (body r); [discriminate | reflexivity].
Qed.


(** Exactly one call is recorded, whatever its outcome. *)
Lemma make_search_request_posts endpoint data up w :
  posts (snd (make_search_request API_KEY endpoint data up w)) =
  (posts w ++ [api_request API_KEY endpoint data])%list.
Proof.
  rewrite make_search_request_run. cbn.
  destruct (up _) as [e | r]; [destruct (is_exception e); reflexivity |].
  destruct (is_success r); [| reflexivity].
  destruct (body r); reflexivity.
Qed.

End MakeSearchRequest.

(** *** Validation: what happens before any provider call *)

Section Validation.

Variable API_KEY : option string.

Lemma absent_arguments_rejected name up w :
  handle_call_tool API_KEY name None up w =
  (Returned (text_content "No arguments provided"), w).
Proof. reflexivity. Qed.

Lemma search_without_query_rejected (m : gmap string pyval) up w :
  m !! "query" = None ->
  handle_call_tool API_KEY "search" (Some m) up w =
  (Returned (text_content "Search query is required"), w).
Proof. intros Hq. step_handler. rewrite Hq. reflexivity. Qed.

Lemma news_without_query_rejected (m : gmap string pyval) up w :
  m !! "query" = None ->
  handle_call_tool API_KEY "news" (Some m) up w =
  (Returned (text_content "News search query is required"), w).
Proof. intros Hq. step_handler. rewrite Hq. reflexivity. Qed.

Lemma crawl_without_url_rejected (m : gmap string pyval) up w :
  m !! "url" = None ->
  handle_call_tool API_KEY "crawl" (Some m) up w =
  (Returned (text_content "URL is required"), w).
Proof. intros Hq. step_handler. rewrite Hq. reflexivity. Qed.

Lemma sitemap_without_url_rejected (m : gmap string pyval) up w :
  m !! "url" = None ->
  handle_call_tool API_KEY "sitemap" (Some m) up w =
  (Returned (text_content "URL is required"), w).
Proof. intros Hq. step_handler. rewrite Hq. reflexivity. Qed.

End Validation.

(** *** Dispatch: the branches once the required field is present *)

Section Dispatch.

Variable API_KEY : option string.

Lemma search_with_query (m : gmap string pyval) q up w :
  m !! "query" = Some q ->
  handle_call_tool API_KEY "search" (Some m) up w =
  (data ← make_search_request API_KEY "/search" (query_body m q);
   relay "Failed to retrieve search results" "results" data) up w.
Proof. intros Hq. unfold relay. step_handler. rewrite Hq. reflexivity. Qed.

Lemma news_with_query (m : gmap string pyval) q up w :
  m !! "query" = Some q ->
  handle_call_tool API_KEY "news" (Some m) up w =
  (data ← make_search_request API_KEY "/news" (query_body m q);
   relay "Failed to retrieve news results" "results" data) up w.
Proof. intros Hq. unfold relay. step_handler. rewrite Hq. reflexivity. Qed.

Lemma crawl_with_url (m : gmap string pyval) u up w :
  m !! "url" = Some u ->
  handle_call_tool API_KEY "crawl" (Some m) up w =
  (data ← make_search_request API_KEY "/crawl" (PDict [("url", u)]);
   relay "Failed to crawl URL" "results" data) up w.
Proof. intros Hq. unfold relay. step_handler. rewrite Hq. reflexivity. Qed.

Lemma sitemap_with_url (m : gmap string pyval) u up w :
  m !! "url" = Some u ->
  handle_call_tool API_KEY "sitemap" (Some m) up w =
  (data ← make_search_request API_KEY "/sitemap" (PDict [("url", u)]);
   relay "Failed to retrieve sitemap" "links" data) up w.
Proof. intros Hq. unfold relay. step_handler. rewrite Hq. reflexivity. Qed.



(** A non-empty dict without the field escapes as [KeyError]. *)
Lemma relay_missing_field failure field d up w :
  d <> [] ->
  assoc field d = None ->
  relay failure field (PDict d) up w = (Raised (KeyError field), w).
Proof.
  intros Hd Hv. unfold relay, getitem. unfold_monad.
  destruct d as [| kv d]; [congruence |]. cbn [truthy negb].
  rewrite Hv. reflexivity.
Qed.

(** Every branch that reaches the provider makes one call and no more. *)
Lemma relay_after_request_posts endpoint data failure field up w :
  posts (snd ((d ← make_search_request API_KEY endpoint data;
               relay failure field d) up w)) =
  (posts w ++ [api_request API_KEY endpoint data])%list.
Proof.
  unfold_monad.
  pose proof (make_search_request_posts API_KEY endpoint data up w) as Hp.
  destruct (make_search_request API_KEY endpoint data up w) as [[d | e] w'];
    cbn in Hp; [| exact Hp].
  unfold relay, getitem. unfold_monad.
  destruct (truthy d); cbn; [| exact Hp].
  destruct d; try exact Hp.
  destruct (assoc field d); exact Hp.
Qed.

(** A failed upstream call ends in the generic message of the branch. *)
Lemma relay_after_failed_request endpoint data failure field up w :
  upstream_failed (up (api_request API_KEY endpoint data)) = true ->
  fst ((d ← make_search_request API_KEY endpoint data;
        relay failure field d) up w) =
  Returned (text_content failure).
Proof.
  intros Hf. unfold_monad.
  pose proof (make_search_request_failed API_KEY endpoint data up w Hf) as Hr.
  destruct (make_search_request API_KEY endpoint data up w) as [r w'].
  cbn in Hr. subst r. reflexivity.
Qed.



End Dispatch.

(** *** The tool catalog *)

(** C8: [list_tools] takes no input, never fails, and is pure and
    idempotent: under every upstream and from every trace it returns the
    same list and leaves the trace as it was.  The list has exactly three
    descriptors, in the order search, news, crawl, whose required fields are
    [query], [query] and [url]. *)
Theorem list_tools_catalog :
  exists tools : list Tool,
    (forall up w, handle_list_tools up w = (Returned tools, w)) /\
    length tools = 3%nat /\
    map name tools = ["search"; "news"; "crawl"] /\
    map required_fields tools = [["query"]; ["query"]; ["url"]].
Proof.
  eexists. split; [intros up w; reflexivity |].
  repeat split.
Qed.

(** *** Validation *)

(** C6: when [arguments] has no [query] key, [search] answers
    "Search query is required" and [news] answers
    "News search query is required"; the trace is unchanged, so the provider
    was not contacted. *)
Theorem missing_query_rejected
  (API_KEY : option string) (m : gmap string pyval) (up : upstream) (w : world) :
  m !! "query" = None ->
  handle_call_tool API_KEY "search" (Some m) up w =
    (Returned (text_content "Search query is required"), w) /\
  handle_call_tool API_KEY "news" (Some m) up w =
    (Returned (text_content "News search query is required"), w).
Proof.
  intros Hq. split.
  - apply search_without_query_rejected, Hq.
  - apply news_without_query_rejected, Hq.
Qed.

Lemma missing_query_rejected_witness :
  (∅ : gmap string pyval) !! "query" = None /\
  handle_call_tool None "search" (Some ∅) always_times_out fresh =
    (Returned (text_content "Search query is required"), fresh) /\
  handle_call_tool None "news" (Some ∅) always_times_out fresh =
    (Returned (text_content "News search query is required"), fresh).
Proof.
  split; [reflexivity |].
  apply (missing_query_rejected None ∅ always_times_out fresh).
  reflexivity.
Defined.

(** C3: for every descriptor [t] that [list_tools] returns and every
    [arguments] value (absent, or a mapping lacking a required field of
    [t]), [call_tool] returns one of the validation messages and the trace
    is unchanged: no provider request is made. *)
Theorem unsatisfied_required_fields_rejected
  (API_KEY : option string) (tools : list Tool) (t : Tool)
  (arguments : option (gmap string pyval))
  (up up0 : upstream) (w w0 w0' : world) :
  handle_list_tools up0 w0 = (Returned tools, w0') ->
  In t tools ->
  satisfies_required t arguments = false ->
  exists msg,
    In msg validation_messages /\
    handle_call_tool API_KEY (name t) arguments up w =
      (Returned (text_content msg), w).
Proof.
  intros Hl Ht Hreq.
  destruct arguments as [m |].
  2:{ exists "No arguments provided". split; [left; reflexivity | reflexivity]. }
  injection Hl as <- _.
  assert (Hlook : forall k, dict_contains k m && true = false -> m !! k = None).
  { intros k. rewrite andb_true_r. unfold dict_contains.
    destruct (m !! k); [discriminate | reflexivity]. }
  destruct Ht as [<- | [<- | [<- | []]]]; cbn in Hreq; apply Hlook in Hreq.
  - exists "Search query is required". split; [right; left; reflexivity |].
    apply search_without_query_rejected, Hreq.
  - exists "News search query is required".
    split; [right; right; left; reflexivity |].
    apply news_without_query_rejected, Hreq.
  - exists "URL is required". split; [right; right; right; left; reflexivity |].
    apply crawl_without_url_rejected, Hreq.
Qed.

Lemma unsatisfied_required_fields_rejected_witness :
  exists msg,
    In msg validation_messages /\
    handle_call_tool None "crawl" (Some only_query) always_times_out fresh =
      (Returned (text_content msg), fresh).
Proof.
  apply (unsatisfied_required_fields_rejected None
           [MkTool "search" "A fast way to search the world" (query_schema "Search query");
            MkTool "news" "Search for news articles" (query_schema "News search query");
            MkTool "crawl" "Extract content from URL" url_schema]
           (MkTool "crawl" "Extract content from URL" url_schema)
           (Some only_query) always_times_out always_times_out fresh fresh fresh).
  - reflexivity.
  - right; right; left; reflexivity.
  - vm_compute; reflexivity.
Defined.

(** *** Unknown names *)

(** C2, as amended: a name outside search, news, crawl and sitemap, called
    with a mapping, raises [ValueError("Unknown tool: <name>")] and leaves
    the trace unchanged. *)
Theorem unknown_tool_raises
  (API_KEY : option string) (name : string) (m : gmap string pyval)
  (up : upstream) (w : world) :
  name <> "search" -> name <> "news" -> name <> "crawl" -> name <> "sitemap" ->
  handle_call_tool API_KEY name (Some m) up w =
    (Raised (ValueError ("Unknown tool: " +:+ name)), w).
Proof.
  intros H1 H2 H3 H4. unfold handle_call_tool.
  apply String.eqb_neq in H1, H2, H3, H4.
  rewrite H1, H2, H3, H4. reflexivity.
Qed.

Lemma unknown_tool_raises_witness :
  handle_call_tool None "unknown_tool" (Some ∅) always_times_out fresh =
    (Raised (ValueError "Unknown tool: unknown_tool"), fresh).
Proof.
  apply (unknown_tool_raises None "unknown_tool" ∅ always_times_out fresh);
    discriminate.
Defined.

(** C2, as stated, fails at the name sitemap: it is none of search, news and
    crawl, yet the call returns an ordinary text result. *)
Lemma sitemap_is_dispatched :
  "sitemap" <> "search" /\ "sitemap" <> "news" /\ "sitemap" <> "crawl" /\
  handle_call_tool None "sitemap" (Some ∅) always_times_out fresh =
    (Returned (text_content "URL is required"), fresh).
Proof.
  repeat split; try discriminate.
Qed.

(** *** The provider request *)

(** C7: [call_tool("search", {"query": q})] makes one provider call, to
    [/search], whose body is exactly [query = q], [max_results = 10] and
    [search_service = "google"]. *)
Theorem search_default_filling
  (API_KEY : option string) (q : pyval) (up : upstream) (w : world) :
  posts (snd (handle_call_tool API_KEY "search" (Some {[ "query" := q ]}) up w)) =
  (posts w ++
   [api_request API_KEY "/search"
      (PDict [("query", q);
              ("max_results", PInt 10);
              ("search_service", PStr "google")])])%list.
Proof.
  rewrite (search_with_query API_KEY _ q) by apply lookup_singleton_eq.
  rewrite relay_after_request_posts.
  unfold query_body, dict_get.
  rewrite !lookup_singleton_ne by discriminate.
  reflexivity.
Qed.

(** Defaults are filled in one by one: an omitted [max_results] becomes 10
    and an omitted [search_service] becomes "google", whatever else the
    mapping holds. *)
Lemma query_body_defaults (m : gmap string pyval) (q : pyval) :
  (m !! "max_results" = None ->
   assoc "max_results" (match query_body m q with PDict d => d | _ => [] end)
   = Some (PInt 10)) /\
  (m !! "search_service" = None ->
   assoc "search_service" (match query_body m q with PDict d => d | _ => [] end)
   = Some (PStr "google")).
Proof.
  unfold query_body, dict_get. split; intros ->; reflexivity.
Qed.

(** C10: for every [arguments] mapping that holds [query], whatever it
    holds under [max_results] and [search_service] reaches the provider
    request body of [search] and of [news] unchanged, of any type and any
    magnitude; no bound and no type is checked.  A key that is absent is
    filled with its default, 10 or "google", independently of the other
    key. *)
Theorem optional_fields_forwarded_verbatim
  (API_KEY : option string) (m : gmap string pyval) (q : pyval)
  (up : upstream) (w : world) :
  m !! "query" = Some q ->
  posts (snd (handle_call_tool API_KEY "search" (Some m) up w)) =
    (posts w ++
     [api_request API_KEY "/search"
        (PDict [("query", q);
                ("max_results", default (PInt 10) (m !! "max_results"));
                ("search_service",
                 default (PStr "google") (m !! "search_service"))])])%list /\
  posts (snd (handle_call_tool API_KEY "news" (Some m) up w)) =
    (posts w ++
     [api_request API_KEY "/news"
        (PDict [("query", q);
                ("max_results", default (PInt 10) (m !! "max_results"));
                ("search_service",
                 default (PStr "google") (m !! "search_service"))])])%list.
Proof.
  intros Hq.
  rewrite (search_with_query API_KEY m q) by exact Hq.
  rewrite (news_with_query API_KEY m q) by exact Hq.
  rewrite !relay_after_request_posts.
  unfold query_body, dict_get.
  destruct (m !! "max_results"), (m !! "search_service"); split; reflexivity.
Qed.

Lemma optional_fields_forwarded_verbatim_witness :
  posts (snd (handle_call_tool None "search" (Some large_max_results)
                always_times_out fresh)) =
    [api_request None "/search"
       (PDict [("query", PStr "q"); ("max_results", PInt 1000);
               ("search_service", PStr "google")])] /\
  posts (snd (handle_call_tool None "news" (Some large_max_results)
                always_times_out fresh)) =
    [api_request None "/news"
       (PDict [("query", PStr "q"); ("max_results", PInt 1000);
               ("search_service", PStr "google")])].
Proof.
  apply (optional_fields_forwarded_verbatim None large_max_results
           (PStr "q") always_times_out fresh).
  vm_compute; reflexivity.
Defined.

(** With both optional keys supplied, here an out-of-range number and a
    value of the wrong type, both are forwarded as they are. *)
Lemma oversized_query_forwarded :
  posts (snd (handle_call_tool None "search" (Some oversized_query)
                always_times_out fresh)) =
    [api_request None "/search"
       (PDict [("query", PStr "q"); ("max_results", PInt 1000);
               ("search_service", PList [])])].
Proof. vm_compute; reflexivity. Qed.

(** *** Upstream failures *)



(** The part of C1 that the code delivers: for each of the three tools
    with its required field present, a transport error, a status outside
    2xx or a body that is not JSON ends in the generic message of the
    tool. *)
Lemma upstream_failure_reported
  (API_KEY : option string) (m : gmap string pyval) (up : upstream) (w : world) :
  (forall rq, upstream_failed (up rq) = true) ->
  (is_Some (m !! "query") ->
   fst (handle_call_tool API_KEY "search" (Some m) up w) =
     Returned (text_content "Failed to retrieve search results") /\
   fst (handle_call_tool API_KEY "news" (Some m) up w) =
     Returned (text_content "Failed to retrieve news results")) /\
  (is_Some (m !! "url") ->
   fst (handle_call_tool API_KEY "crawl" (Some m) up w) =
     Returned (text_content "Failed to crawl URL")).
Proof.
  intros Hf. split.
  - intros [q Hq].
    rewrite (search_with_query API_KEY m q), (news_with_query API_KEY m q)
      by exact Hq.
    split; apply relay_after_failed_request, Hf.
  - intros [u Hu].
    rewrite (crawl_with_url API_KEY m u) by exact Hu.
    apply relay_after_failed_request, Hf.
Qed.

(** C1 at a 2xx answer whose JSON body is a non-empty object without the
    [results] key: [search], [news] and [crawl] all raise [KeyError]
    instead of returning their generic message. *)
Theorem missing_results_key_raises
  (API_KEY : option string) (w : world) :
  fst (handle_call_tool API_KEY "search" (Some only_query)
         (always_answers 200 error_payload) w) =
    Raised (KeyError "results") /\
  fst (handle_call_tool API_KEY "news" (Some only_query)
         (always_answers 200 error_payload) w) =
    Raised (KeyError "results") /\
  fst (handle_call_tool API_KEY "crawl" (Some only_url)
         (always_answers 200 error_payload) w) =
    Raised (KeyError "results").
Proof.
  rewrite (search_with_query API_KEY only_query (PStr "q")) by reflexivity.
  rewrite (news_with_query API_KEY only_query (PStr "q")) by reflexivity.
  rewrite (crawl_with_url API_KEY only_url (PStr "http://x")) by reflexivity.
  unfold_monad. rewrite !make_search_request_run.
  repeat split.
Qed.



(** An empty answer from [/news] and [/crawl] is a failure of [news] and
    of [crawl] even under an upstream whose [/search] has hits: no branch
    falls back on another endpoint. *)
Lemma empty_answer_is_not_replaced :
  handle_call_tool None "news" (Some query_and_url) empty_news_and_crawl fresh =
    (Returned (text_content "Failed to retrieve news results"),
     World [api_request None "/news" (query_body query_and_url (PStr "q"))] []) /\
  handle_call_tool None "crawl" (Some query_and_url) empty_news_and_crawl fresh =
    (Returned (text_content "Failed to crawl URL"),
     World [api_request None "/crawl" (PDict [("url", PStr "http://x")])] []).
Proof. split; vm_compute; reflexivity. Qed.

(** *** Success *)



(** A 2xx answer whose JSON body is true in Python but is not an object
    (a non-empty array here) escapes as [TypeError]. *)
Lemma non_object_body_raises (API_KEY : option string) (w : world) :
  fst (handle_call_tool API_KEY "search" (Some only_query)
         (always_answers 200 (PList [PInt 1])) w) =
    Raised TypeError.
Proof.
  rewrite (search_with_query API_KEY only_query (PStr "q")) by reflexivity.
  unfold_monad. rewrite make_search_request_run. reflexivity.
Qed.

(** ** Beyond the claims: the whole of [handle_call_tool] and its helpers *)

(** *** The shape of every run *)

Section Shape.

Variable API_KEY : option string.

Lemma relay_run failure field data up w :
  relay failure field data up w = (relay_result failure field data, w).
Proof.
  unfold relay, relay_result, getitem. unfold_monad.
  destruct (truthy data); cbn [negb]; [| reflexivity].
  destruct data; try reflexivity.
  destruct (assoc field d); reflexivity.
Qed.

(** A call followed by [relay], in terms of what the upstream did. *)
Lemma relay_after_request_run endpoint data failure field up w :
  (d ← make_search_request API_KEY endpoint data; relay failure field d) up w =
  let rq := api_request API_KEY endpoint data in
  let sent := (posts w ++ [rq])%list in
  match up rq with
  | PostRaises e =>
      if is_exception e then
        (Returned (text_content failure), World sent (printed w ++ [e]))
      else (Raised e, World sent (printed w))
  | Responds r =>
      if is_success r then
        match body r with
        | Some v => (relay_result failure field v, World sent (printed w))
        | None =>
            (Returned (text_content failure),
             World sent (printed w ++ [JSONDecodeError]))
        end
      else
        (Returned (text_content failure),
         World sent (printed w ++ [HTTPStatusError (status_code r)]))
  end.
Proof.
  unfold_monad. rewrite make_search_request_run. cbn.
  destruct (up _) as [e | r]; [destruct (is_exception e); reflexivity |].
  destruct (is_success r); [| reflexivity].
  destruct (body r) as [v |]; [| reflexivity].
  apply relay_run.
Qed.

Lemma branch_of_cases name :
  (name = "search" /\ branch_of name =
     Some (Branch "query" "Search query is required" "/search"
             "Failed to retrieve search results" "results")) \/
  (name = "news" /\ branch_of name =
     Some (Branch "query" "News search query is required" "/news"
             "Failed to retrieve news results" "results")) \/
  (name = "crawl" /\ branch_of name =
     Some (Branch "url" "URL is required" "/crawl"
             "Failed to crawl URL" "results")) \/
  (name = "sitemap" /\ branch_of name =
     Some (Branch "url" "URL is required" "/sitemap"
             "Failed to retrieve sitemap" "links")) \/
  ((name <> "search" /\ name <> "news" /\ name <> "crawl" /\ name <> "sitemap") /\
   branch_of name = None).
Proof.
  unfold branch_of.
  destruct (String.eqb_spec name "search") as [-> | H1]; [auto |].
  destruct (String.eqb_spec name "news") as [-> | H2]; [auto |].
  destruct (String.eqb_spec name "crawl") as [-> | H3]; [auto 6 |].
  destruct (String.eqb_spec name "sitemap") as [-> | H4]; [auto 6 |].
  auto 10.
Qed.

Lemma dispatch_unknown name (m : gmap string pyval) up w :
  branch_of name = None ->
  handle_call_tool API_KEY name (Some m) up w =
  (Raised (ValueError ("Unknown tool: " +:+ name)), w).
Proof.
  intros Hb.
  destruct (branch_of_cases name)
    as [[_ H] | [[_ H] | [[_ H] | [[_ H] | [[H1 [H2 [H3 H4]]] _]]]]];
    try congruence.
  unfold handle_call_tool.
  apply String.eqb_neq in H1, H2, H3, H4.
  rewrite H1, H2, H3, H4. reflexivity.
Qed.

Lemma dispatch_missing name b (m : gmap string pyval) up w :
  branch_of name = Some b ->
  m !! b_required b = None ->
  handle_call_tool API_KEY name (Some m) up w =
  (Returned (text_content (b_missing b)), w).
Proof.
  intros Hb Hm.
  destruct (branch_of_cases name)
    as [[-> H] | [[-> H] | [[-> H] | [[-> H] | [_ H]]]]];
    rewrite H in Hb; try discriminate;
    injection Hb as <-; cbn in Hm |- *.
  - apply search_without_query_rejected, Hm.
  - apply news_without_query_rejected, Hm.
  - apply crawl_without_url_rejected, Hm.
  - apply sitemap_without_url_rejected, Hm.
Qed.

Lemma dispatch_present name b (m : gmap string pyval) x up w :
  branch_of name = Some b ->
  m !! b_required b = Some x ->
  handle_call_tool API_KEY name (Some m) up w =
  (d ← make_search_request API_KEY (b_endpoint b) (branch_body b m x);
   relay (b_failure b) (b_field b) d) up w.
Proof.
  intros Hb Hm.
  destruct (branch_of_cases name)
    as [[-> H] | [[-> H] | [[-> H] | [[-> H] | [_ H]]]]];
    rewrite H in Hb; try discriminate;
    injection Hb as <-; cbn in Hm |- *.
  - apply search_with_query, Hm.
  - apply news_with_query, Hm.
  - apply crawl_with_url, Hm.
  - apply sitemap_with_url, Hm.
Qed.

(** The three ways a call with a mapping can go. *)
Lemma dispatch_cases name (m : gmap string pyval) :
  branch_of name = None \/
  (exists b, branch_of name = Some b /\ m !! b_required b = None) \/
  (exists b x, branch_of name = Some b /\ m !! b_required b = Some x).
Proof.
  destruct (branch_of name) as [b |]; [| auto].
  right. destruct (m !! b_required b) as [x |] eqn:Hm; eauto 6.
Qed.

Lemma world_eta w : w = World (posts w ++ []) (printed w ++ []).
Proof. destruct w. cbn. rewrite !app_nil_r. reflexivity. Qed.

End Shape.

Lemma branch_field name b :
  branch_of name = Some b -> b_field b = "results" \/ b_field b = "links".
Proof.
  intros Hb.
  destruct (branch_of_cases name)
    as [[_ H] | [[_ H] | [[_ H] | [[_ H] | [_ H]]]]];
    rewrite H in Hb; try discriminate; injection Hb as <-; cbn; auto.
Qed.

Lemma relay_result_cases failure field data :
  relay_result failure field data = Returned (text_content failure) \/
  (exists x, relay_result failure field data =
             Returned (text_content (json_dumps x))) \/
  relay_result failure field data = Raised (KeyError field) \/
  relay_result failure field data = Raised TypeError.
Proof.
  unfold relay_result.
  destruct (truthy data); [| auto].
  destruct data; auto.
  destruct (assoc field d); eauto.
Qed.

(** Splits a run of [handle_call_tool] into absent arguments, unknown
    name, missing key, and the provider call with each of its outcomes. *)
Ltac split_run key name arguments up w :=
  let m := fresh "m" in
  let b := fresh "b" in
  let x := fresh "x" in
  let Hb := fresh "Hb" in
  let Hm := fresh "Hm" in
  destruct arguments as [m |];
  [ destruct (dispatch_cases name m) as [Hb | [(b & Hb & Hm) | (b & x & Hb & Hm)]];
    [ rewrite (dispatch_unknown key name m up w Hb)
    | rewrite (dispatch_missing key name b m up w Hb Hm)
    | rewrite (dispatch_present key name b m x up w Hb Hm),
        relay_after_request_run; cbn zeta ]
  | rewrite (absent_arguments_rejected key name up w) ].

(** *** [make_search_request] *)

(** [make_search_request] makes exactly one call: a POST to
    [https://api.search1api.com] followed by the endpoint, with the bearer
    header, the JSON content type, the data as body and a timeout of 30
    seconds.  It returns whenever [client.post] answers, whatever the
    answer, and returns [None] when [client.post] raises an [Exception];
    the only thing it raises is what [client.post] raised outside
    [Exception] (a cancellation), passed on unchanged. *)
Theorem make_search_request_one_call
  (API_KEY : option string) (endpoint : string) (data : pyval)
  (up : upstream) (w : world) :
  posts (snd (make_search_request API_KEY endpoint data up w)) =
    (posts w ++
     [PostRequest ("https://api.search1api.com" +:+ endpoint)
        [("Authorization", "Bearer " +:+ format_api_key API_KEY);
         ("Content-Type", "application/json")]
        data 30])%list /\
  match up (PostRequest ("https://api.search1api.com" +:+ endpoint)
              [("Authorization", "Bearer " +:+ format_api_key API_KEY);
               ("Content-Type", "application/json")]
              data 30) with
  | PostRaises e =>
      fst (make_search_request API_KEY endpoint data up w) =
      if is_exception e then Returned PNone else Raised e
  | Responds _ =>
      exists v, fst (make_search_request API_KEY endpoint data up w) = Returned v
  end.
Proof.
  rewrite make_search_request_run. cbn zeta.
  change (api_request API_KEY endpoint data)
    with (PostRequest ("https://api.search1api.com" +:+ endpoint)
            [("Authorization", "Bearer " +:+ format_api_key API_KEY);
             ("Content-Type", "application/json")]
            data 30).
  destruct (up _) as [e | r].
  { destruct (is_exception e); split; reflexivity. }
  destruct (is_success r); [| split; [reflexivity | eexists; reflexivity]].
  destruct (body r); split; try reflexivity; eexists; reflexivity.
Qed.

(** [make_search_request] calls [print] exactly when its [except] clause
    caught something, once, with the exception caught: the one
    [client.post] raised, the [HTTPStatusError] of a status outside 2xx, or
    the decoding error of a body that is not JSON; it then returns [None].
    Otherwise it prints nothing, and returns the decoded body or passes on
    what [client.post] raised outside [Exception].  Earlier entries are
    kept. *)
Theorem make_search_request_logs_failures
  (API_KEY : option string) (endpoint : string) (data : pyval)
  (up : upstream) (w : world) :
  match failure_cause (up (api_request API_KEY endpoint data)) with
  | Some e =>
      fst (make_search_request API_KEY endpoint data up w) = Returned PNone /\
      printed (snd (make_search_request API_KEY endpoint data up w)) =
        (printed w ++ [e])%list
  | None =>
      printed (snd (make_search_request API_KEY endpoint data up w)) =
        printed w /\
      match up (api_request API_KEY endpoint data) with
      | PostRaises e =>
          fst (make_search_request API_KEY endpoint data up w) = Raised e
      | Responds r =>
          exists v,
            body r = Some v /\
            fst (make_search_request API_KEY endpoint data up w) = Returned v
      end
  end.
Proof.
  rewrite make_search_request_run. cbn zeta. unfold failure_cause.
  destruct (up _) as [e | r].
  { destruct (is_exception e); split; reflexivity. }
  destruct (is_success r); [| split; reflexivity].
  destruct (body r) as [v |]; [| split; reflexivity].
  split; [reflexivity |]. exists v. split; reflexivity.
Qed.

(** *** [handle_call_tool]: what no run does *)

(** [handle_call_tool] never retries: for given name, arguments and
    upstream it makes at most one provider call, also when that call
    failed, and at most one call of [print], and none without a provider
    call; the result and these calls are the same after every earlier
    trace, which is kept as a prefix. *)
Theorem handle_call_tool_frame
  (API_KEY : option string) (name : string)
  (arguments : option (gmap string pyval)) (up : upstream) :
  exists r l p,
    (length l <= 1)%nat /\ (length p <= length l)%nat /\
    forall w,
      handle_call_tool API_KEY name arguments up w =
      (r, World (posts w ++ l) (printed w ++ p)).
Proof.
  destruct arguments as [m |].
  2:{ exists (Returned (text_content "No arguments provided")), [], [].
      split; [cbn; lia |]. split; [cbn; lia |]. intros w.
      rewrite absent_arguments_rejected. f_equal. apply world_eta. }
  destruct (dispatch_cases name m) as [Hb | [(b & Hb & Hm) | (b & x & Hb & Hm)]].
  - eexists _, [], []. split; [cbn; lia |]. split; [cbn; lia |]. intros w.
    rewrite (dispatch_unknown API_KEY name m up w Hb). f_equal. apply world_eta.
  - eexists _, [], []. split; [cbn; lia |]. split; [cbn; lia |]. intros w.
    rewrite (dispatch_missing API_KEY name b m up w Hb Hm). f_equal.
    apply world_eta.
  - destruct (up (api_request API_KEY (b_endpoint b) (branch_body b m x)))
      as [e | r] eqn:Hup.
    { destruct (is_exception e) eqn:He.
      - eexists _, [_], [e]. split; [cbn; lia |]. split; [cbn; lia |]. intros w.
        rewrite (dispatch_present API_KEY name b m x up w Hb Hm),
          relay_after_request_run. cbn zeta. rewrite Hup, He. reflexivity.
      - eexists _, [_], []. split; [cbn; lia |]. split; [cbn; lia |]. intros w.
        rewrite (dispatch_present API_KEY name b m x up w Hb Hm),
          relay_after_request_run. cbn zeta. rewrite Hup, He, app_nil_r.
        reflexivity. }
    destruct (is_success r) eqn:Hs.
    2:{ eexists _, [_], [_]. split; [cbn; lia |]. split; [cbn; lia |]. intros w.
        rewrite (dispatch_present API_KEY name b m x up w Hb Hm),
          relay_after_request_run. cbn zeta. rewrite Hup, Hs. reflexivity. }
    destruct (body r) as [v |] eqn:Hbody.
    + eexists _, [_], []. split; [cbn; lia |]. split; [cbn; lia |]. intros w.
      rewrite (dispatch_present API_KEY name b m x up w Hb Hm),
        relay_after_request_run. cbn zeta. rewrite Hup, Hs, Hbody.
      rewrite app_nil_r. reflexivity.
    + eexists _, [_], [_]. split; [cbn; lia |]. split; [cbn; lia |]. intros w.
      rewrite (dispatch_present API_KEY name b m x up w Hb Hm),
        relay_after_request_run. cbn zeta. rewrite Hup, Hs, Hbody.
      reflexivity.
Qed.

(** Whatever [handle_call_tool] returns is a list of exactly one content
    item, of type [text]. *)
Theorem handle_call_tool_returns_one_text
  (API_KEY : option string) (name : string)
  (arguments : option (gmap string pyval)) (up : upstream) (w : world)
  (l : list TextContent) :
  fst (handle_call_tool API_KEY name arguments up w) = Returned l ->
  exists s, l = [MkTextContent "text" s].
Proof.
  split_run API_KEY name arguments up w; cbn [fst]; intros H.
  - discriminate.
  - injection H as <-. eexists. reflexivity.
  - destruct (up _) as [e | r]; cbn [fst] in H.
    { destruct (is_exception e); cbn [fst] in H; [| discriminate].
      injection H as <-. eexists. reflexivity. }
    destruct (is_success r); cbn [fst] in H.
    2:{ injection H as <-. eexists. reflexivity. }
    destruct (body r) as [v |]; cbn [fst] in H.
    2:{ injection H as <-. eexists. reflexivity. }
    destruct (relay_result_cases (b_failure b) (b_field b) v)
      as [E | [[y E] | [E | E]]]; rewrite E in H; try discriminate;
      injection H as <-; eexists; reflexivity.
  - injection H as <-. eexists. reflexivity.
Qed.

Lemma handle_call_tool_returns_one_text_witness :
  exists s, text_content "Failed to crawl URL" = [MkTextContent "text" s].
Proof.
  apply (handle_call_tool_returns_one_text None "crawl" (Some only_url)
           always_times_out fresh).
  vm_compute; reflexivity.
Defined.

(** The only exceptions that leave [handle_call_tool] are the unknown-tool
    [ValueError], a [KeyError] for [results] or [links], a [TypeError], and
    what [client.post] itself raised outside [Exception] (a cancellation at
    the [await]); no transport, status or decoding [Exception] of the
    provider call escapes. *)
Theorem handle_call_tool_escaping_exceptions
  (API_KEY : option string) (name : string)
  (arguments : option (gmap string pyval)) (up : upstream) (w : world)
  (e : exn) :
  fst (handle_call_tool API_KEY name arguments up w) = Raised e ->
  e = ValueError ("Unknown tool: " +:+ name) \/
  e = KeyError "results" \/ e = KeyError "links" \/ e = TypeError \/
  (is_exception e = false /\
   exists rq,
     In rq (posts (snd (handle_call_tool API_KEY name arguments up w))) /\
     up rq = PostRaises e).
Proof.
  split_run API_KEY name arguments up w; cbn [fst]; intros H.
  - injection H as <-. auto.
  - discriminate.
  - destruct (up _) as [e' | r] eqn:Hup; cbn [fst] in H.
    { destruct (is_exception e') eqn:He; cbn [fst] in H; [discriminate |].
      injection H as <-. do 4 right. split; [exact He |].
      eexists. split; [| exact Hup].
      cbn [snd posts]. apply in_or_app. right. left. reflexivity. }
    destruct (is_success r); cbn [fst] in H; [| discriminate].
    destruct (body r) as [v |]; cbn [fst] in H; [| discriminate].
    destruct (relay_result_cases (b_failure b) (b_field b) v)
      as [E | [[y E] | [E | E]]]; rewrite E in H; try discriminate;
      injection H as <-; [| auto].
    destruct (branch_field name b Hb) as [-> | ->]; auto.
  - discriminate.
Qed.

Lemma handle_call_tool_escaping_exceptions_witness :
  CancelledError = ValueError ("Unknown tool: " +:+ "news") \/
  CancelledError = KeyError "results" \/
  CancelledError = KeyError "links" \/
  CancelledError = TypeError \/
  (is_exception CancelledError = false /\
   exists rq,
     In rq (posts (snd (handle_call_tool None "news" (Some only_query)
                          (fun _ => PostRaises CancelledError) fresh))) /\
     PostRaises CancelledError = PostRaises CancelledError).
Proof.
  apply (handle_call_tool_escaping_exceptions None "news" (Some only_query)
           (fun _ => PostRaises CancelledError) fresh).
  vm_compute; reflexivity.
Defined.

(** The unknown-tool [ValueError] is raised exactly when a mapping is
    given and the name is none of search, news, crawl and sitemap; with
    absent arguments no name raises it. *)
Theorem unknown_tool_error_iff
  (API_KEY : option string) (name : string)
  (arguments : option (gmap string pyval)) (up : upstream) (w : world) :
  fst (handle_call_tool API_KEY name arguments up w) =
    Raised (ValueError ("Unknown tool: " +:+ name)) <->
  (exists m, arguments = Some m) /\
  name <> "search" /\ name <> "news" /\ name <> "crawl" /\ name <> "sitemap".
Proof.
  split.
  - split_run API_KEY name arguments up w; cbn [fst]; intros H.
    + split; [eauto |].
      destruct (branch_of_cases name)
        as [[_ E] | [[_ E] | [[_ E] | [[_ E] | [Hn _]]]]];
        first [exact Hn | congruence].
    + discriminate.
    + exfalso.
      destruct (up _) as [e' | r]; cbn [fst] in H.
      { destruct (is_exception e') eqn:He; cbn [fst] in H; [discriminate |].
        injection H as ->. discriminate He. }
      destruct (is_success r); cbn [fst] in H; [| discriminate].
      destruct (body r) as [v |]; cbn [fst] in H; [| discriminate].
      destruct (relay_result_cases (b_failure b) (b_field b) v)
        as [E | [[y E] | [E | E]]]; rewrite E in H; discriminate.
    + discriminate.
  - intros [[m ->] (H1 & H2 & H3 & H4)].
    rewrite dispatch_unknown; [reflexivity |].
    destruct (branch_of_cases name)
      as [[-> E] | [[-> E] | [[-> E] | [[-> E] | [_ E]]]]];
      congruence.
Qed.

(** *** What reaches the provider *)

Lemma posted_url_is_tool_path_shape
  (API_KEY : option string) (name : string)
  (arguments : option (gmap string pyval)) (up : upstream) (w : world) :
  exists l,
    posts (snd (handle_call_tool API_KEY name arguments up w)) =
      (posts w ++ l)%list /\
    Forall (fun rq =>
              url rq = "https://api.search1api.com/" +:+ name /\
              timeout rq = 30 /\
              headers rq =
                [("Authorization", "Bearer " +:+ format_api_key API_KEY);
                 ("Content-Type", "application/json")]) l.
Proof.
  destruct arguments as [m |].
  2:{ exists []. rewrite absent_arguments_rejected, app_nil_r. auto. }
  destruct (dispatch_cases name m) as [Hb | [(b & Hb & Hm) | (b & x & Hb & Hm)]].
  - exists []. rewrite (dispatch_unknown API_KEY name m up w Hb), app_nil_r. auto.
  - exists []. rewrite (dispatch_missing API_KEY name b m up w Hb Hm), app_nil_r.
    auto.
  - eexists. rewrite (dispatch_present API_KEY name b m x up w Hb Hm).
    split; [apply relay_after_request_posts |].
    constructor; [| constructor].
    destruct (branch_of_cases name)
      as [[-> E] | [[-> E] | [[-> E] | [[-> E] | [_ E]]]]];
      rewrite E in Hb; try discriminate; injection Hb as <-;
      repeat split.
Qed.

(** Every call that [handle_call_tool] makes goes to
    [https://api.search1api.com/] followed by the tool name, with a timeout
    of 30 seconds, the bearer header built from [API_KEY] and the JSON
    content type; earlier calls stay in the trace. *)
Theorem posted_url_is_tool_path
  (API_KEY : option string) (name : string)
  (arguments : option (gmap string pyval)) (up : upstream) (w : world) :
  exists l,
    posts (snd (handle_call_tool API_KEY name arguments up w)) =
      (posts w ++ l)%list /\
    Forall (fun rq =>
              url rq = "https://api.search1api.com/" +:+ name /\
              timeout rq = 30 /\
              headers rq =
                [("Authorization", "Bearer " +:+ format_api_key API_KEY);
                 ("Content-Type", "application/json")]) l.
Proof. apply posted_url_is_tool_path_shape. Qed.

(** [crawl] and [sitemap] forward the value of [url] and nothing else:
    every other key of [arguments] is dropped from the request body. *)
Theorem url_tools_forward_only_url
  (API_KEY : option string) (m : gmap string pyval) (u : pyval)
  (up : upstream) (w : world) :
  m !! "url" = Some u ->
  posts (snd (handle_call_tool API_KEY "crawl" (Some m) up w)) =
    (posts w ++ [api_request API_KEY "/crawl" (PDict [("url", u)])])%list /\
  posts (snd (handle_call_tool API_KEY "sitemap" (Some m) up w)) =
    (posts w ++ [api_request API_KEY "/sitemap" (PDict [("url", u)])])%list.
Proof.
  intros Hu.
  rewrite (crawl_with_url API_KEY m u), (sitemap_with_url API_KEY m u)
    by exact Hu.
  rewrite !relay_after_request_posts. split; reflexivity.
Qed.

Lemma url_tools_forward_only_url_witness :
  posts (snd (handle_call_tool None "crawl" (Some url_with_noise)
                always_times_out fresh)) =
    [api_request None "/crawl" (PDict [("url", PStr "http://x")])] /\
  posts (snd (handle_call_tool None "sitemap" (Some url_with_noise)
                always_times_out fresh)) =
    [api_request None "/sitemap" (PDict [("url", PStr "http://x")])].
Proof.
  apply (url_tools_forward_only_url None url_with_noise (PStr "http://x")
           always_times_out fresh).
  vm_compute; reflexivity.
Defined.

(** [search] and [news] read three keys of [arguments] and no other: two
    mappings that agree on [query], [max_results] and [search_service] give
    the same result, the same provider call and the same calls of [print]. *)
Theorem query_tools_read_three_keys
  (API_KEY : option string) (m1 m2 : gmap string pyval)
  (up : upstream) (w : world) :
  m1 !! "query" = m2 !! "query" ->
  m1 !! "max_results" = m2 !! "max_results" ->
  m1 !! "search_service" = m2 !! "search_service" ->
  handle_call_tool API_KEY "search" (Some m1) up w =
    handle_call_tool API_KEY "search" (Some m2) up w /\
  handle_call_tool API_KEY "news" (Some m1) up w =
    handle_call_tool API_KEY "news" (Some m2) up w.
Proof.
  intros Hq Hr Hs.
  destruct (m2 !! "query") as [q |] eqn:Hq2.
  - rewrite (search_with_query API_KEY m1 q), (search_with_query API_KEY m2 q),
      (news_with_query API_KEY m1 q), (news_with_query API_KEY m2 q)
      by assumption.
    unfold query_body, dict_get. rewrite Hr, Hs. split; reflexivity.
  - rewrite !search_without_query_rejected, !news_without_query_rejected
      by assumption.
    split; reflexivity.
Qed.

Lemma query_tools_read_three_keys_witness :
  handle_call_tool None "search" (Some query_with_noise) always_times_out fresh =
    handle_call_tool None "search" (Some only_query) always_times_out fresh /\
  handle_call_tool None "news" (Some query_with_noise) always_times_out fresh =
    handle_call_tool None "news" (Some only_query) always_times_out fresh.
Proof.
  apply (query_tools_read_three_keys None query_with_noise only_query
           always_times_out fresh);
    vm_compute; reflexivity.
Defined.

(** *** What comes back from the provider *)



(** A 2xx answer whose JSON body is true in Python without being an object
    (a non-empty array or string, a non-zero number, [true]) makes every
    dispatched tool raise [TypeError]. *)
Theorem truthy_non_object_body_raises
  (API_KEY : option string) (name : string) (b : branch)
  (m : gmap string pyval) (x : pyval) (up : upstream) (w : world)
  (r : response) (v : pyval) :
  branch_of name = Some b ->
  m !! b_required b = Some x ->
  up (api_request API_KEY (b_endpoint b) (branch_body b m x)) = Responds r ->
  is_success r = true ->
  body r = Some v ->
  truthy v = true ->
  (forall d, v <> PDict d) ->
  fst (handle_call_tool API_KEY name (Some m) up w) = Raised TypeError.
Proof.
  intros Hb Hm Hup Hs Hbody Ht Hv.
  rewrite (dispatch_present API_KEY name b m x up w Hb Hm),
    relay_after_request_run. cbn zeta.
  rewrite Hup, Hs, Hbody. cbn [fst]. unfold relay_result. rewrite Ht.
  destruct v; try reflexivity. destruct (Hv d). reflexivity.
Qed.

Lemma truthy_non_object_body_raises_witness :
  fst (handle_call_tool None "crawl" (Some only_url)
         (always_answers 200 (PStr "ok")) fresh) = Raised TypeError.
Proof.
  apply (truthy_non_object_body_raises None "crawl"
           (Branch "url" "URL is required" "/crawl" "Failed to crawl URL" "results")
           only_url (PStr "http://x") (always_answers 200 (PStr "ok")) fresh
           (Response 200 (Some (PStr "ok"))) (PStr "ok"));
    try (vm_compute; reflexivity).
  intros d; discriminate.
Defined.





(** *** The catalog against the dispatcher *)

(** The required fields that [list_tools] advertises are all that
    [call_tool] asks for: a mapping holding every required field of a listed
    tool gets exactly one provider call, to the path of that tool. *)
Theorem satisfied_required_fields_reach_provider
  (API_KEY : option string) (tools : list Tool) (t : Tool)
  (m : gmap string pyval) (up up0 : upstream) (w w0 w0' : world) :
  handle_list_tools up0 w0 = (Returned tools, w0') ->
  In t tools ->
  satisfies_required t (Some m) = true ->
  exists rq,
    posts (snd (handle_call_tool API_KEY (name t) (Some m) up w)) =
      (posts w ++ [rq])%list /\
    url rq = "https://api.search1api.com/" +:+ name t.
Proof.
  intros Hl Ht Hreq. injection Hl as <- _.
  assert (Hlook : forall k, dict_contains k m && true = true ->
                            exists x, m !! k = Some x).
  { intros k. rewrite andb_true_r. unfold dict_contains.
    destruct (m !! k); [eauto | discriminate]. }
  destruct Ht as [<- | [<- | [<- | []]]]; cbn in Hreq;
    apply Hlook in Hreq as [x Hx]; cbn [name]; eexists.
  - rewrite (search_with_query API_KEY m x up w Hx), relay_after_request_posts.
    split; reflexivity.
  - rewrite (news_with_query API_KEY m x up w Hx), relay_after_request_posts.
    split; reflexivity.
  - rewrite (crawl_with_url API_KEY m x up w Hx), relay_after_request_posts.
    split; reflexivity.
Qed.

Lemma satisfied_required_fields_reach_provider_witness :
  exists rq,
    posts (snd (handle_call_tool None "crawl" (Some only_url)
                  always_times_out fresh)) = [rq] /\
    url rq = "https://api.search1api.com/crawl".
Proof.
  apply (satisfied_required_fields_reach_provider None
           [MkTool "search" "A fast way to search the world" (query_schema "Search query");
            MkTool "news" "Search for news articles" (query_schema "News search query");
            MkTool "crawl" "Extract content from URL" url_schema]
           (MkTool "crawl" "Extract content from URL" url_schema)
           only_url always_times_out always_times_out fresh fresh fresh).
  - reflexivity.
  - right; right; left; reflexivity.
  - vm_compute; reflexivity.
Defined.

(** The defaults that [list_tools] advertises are the defaults that
    [call_tool] applies: when a listed tool declares a default for a
    property and the mapping omits that property, the request body carries
    the declared default under that key. *)
Theorem advertised_defaults_are_applied
  (API_KEY : option string) (tools : list Tool) (t : Tool) (k : string)
  (dflt : pyval) (m : gmap string pyval) (up up0 : upstream) (w w0 w0' : world) :
  handle_list_tools up0 w0 = (Returned tools, w0') ->
  In t tools ->
  schema_default t k = Some dflt ->
  satisfies_required t (Some m) = true ->
  m !! k = None ->
  exists rq,
    posts (snd (handle_call_tool API_KEY (name t) (Some m) up w)) =
      (posts w ++ [rq])%list /\
    body_field rq k = Some dflt.
Proof.
  intros Hl Ht Hd Hreq Hk. injection Hl as <- _.
  assert (Hlook : forall k, dict_contains k m && true = true ->
                            exists x, m !! k = Some x).
  { intros k'. rewrite andb_true_r. unfold dict_contains.
    destruct (m !! k'); [eauto | discriminate]. }
  destruct Ht as [<- | [<- | [<- | []]]]; cbn in Hreq;
    apply Hlook in Hreq as [x Hx]; cbn [name];
    unfold schema_default in Hd; cbn in Hd;
    destruct (String.eqb_spec k "query") as [-> | _];
    try discriminate;
    try (destruct (String.eqb_spec k "url") as [-> | _]; discriminate);
    (destruct (String.eqb_spec k "max_results") as [-> | _];
     [| destruct (String.eqb_spec k "search_service") as [-> | _];
        [| discriminate]]);
    injection Hd as <-; eexists.
  - rewrite (search_with_query API_KEY m x up w Hx), relay_after_request_posts.
    split; [reflexivity |].
    unfold body_field, query_body, dict_get. cbn. rewrite Hk. reflexivity.
  - rewrite (search_with_query API_KEY m x up w Hx), relay_after_request_posts.
    split; [reflexivity |].
    unfold body_field, query_body, dict_get. cbn. rewrite Hk. reflexivity.
  - rewrite (news_with_query API_KEY m x up w Hx), relay_after_request_posts.
    split; [reflexivity |].
    unfold body_field, query_body, dict_get. cbn. rewrite Hk. reflexivity.
  - rewrite (news_with_query API_KEY m x up w Hx), relay_after_request_posts.
    split; [reflexivity |].
    unfold body_field, query_body, dict_get. cbn. rewrite Hk. reflexivity.
Qed.

Lemma advertised_defaults_are_applied_witness :
  exists rq,
    posts (snd (handle_call_tool None "news" (Some only_query)
                  always_times_out fresh)) = [rq] /\
    body_field rq "search_service" = Some (PStr "google").
Proof.
  apply (advertised_defaults_are_applied None
           [MkTool "search" "A fast way to search the world" (query_schema "Search query");
            MkTool "news" "Search for news articles" (query_schema "News search query");
            MkTool "crawl" "Extract content from URL" url_schema]
           (MkTool "news" "Search for news articles" (query_schema "News search query"))
           "search_service" (PStr "google")
           only_query always_times_out always_times_out fresh fresh fresh).
  - reflexivity.
  - right; left; reflexivity.
  - vm_compute; reflexivity.
  - vm_compute; reflexivity.
  - vm_compute; reflexivity.
Defined.

(** *** Start-up *)

(** [start_server] raises its [ValueError] exactly when the key is unset
    or empty, whatever host and port are; when it goes on to serve, it
    serves on the host and port it was given, the key is a non-empty string,
    and every provider call of [handle_call_tool] carries that key in its
    bearer header. *)
Theorem start_server_guards_the_key
  (API_KEY : option string) (host : string) (port : Z) :
  match start_server API_KEY host port with
  | Raised e =>
      e = ValueError "SEARCH1API_KEY environment variable is not set" /\
      (API_KEY = None \/ API_KEY = Some EmptyString)
  | Returned s =>
      s = UvicornRun host port /\
      exists k,
        API_KEY = Some k /\ k <> EmptyString /\
        forall name arguments up w,
        exists l,
          posts (snd (handle_call_tool API_KEY name arguments up w)) =
            (posts w ++ l)%list /\
          Forall (fun rq =>
                    headers rq = [("Authorization", "Bearer " +:+ k);
                                  ("Content-Type", "application/json")]) l
  end.
Proof.
  unfold start_server, api_key_value.
  destruct API_KEY as [k |]; cbn [truthy negb]; [| auto].
  destruct (String.eqb_spec k EmptyString) as [-> | Hk]; cbn [negb]; [auto |].
  split; [reflexivity |]. exists k. repeat split; [exact Hk |].
  intros name arguments up w.
  destruct (posted_url_is_tool_path_shape (Some k) name arguments up w)
    as (l & Hl & Hall).
  exists l. split; [exact Hl |].
  eapply Forall_impl; [exact Hall |]. cbn. intros rq (_ & _ & H). exact H.
Qed.

(** *** Telling a success from a failure *)

Lemma pretty_N_char_digit n :
  (n < 10)%N -> is_digit (pretty_N_char n) = true.
Proof.
  destruct n as [| p]; [reflexivity |]. intros Hn.
  do 4 (try (destruct p as [p | p |]; try reflexivity)); lia.
Qed.

Lemma pretty_N_go_head x s :
  (0 < x)%N ->
  exists c rest, pretty_N_go x s = String c rest /\ is_digit c = true.
Proof.
  revert s. induction (N.lt_wf_0 x) as [x _ IH]. intros s Hx.
  rewrite pretty_N_go_step by exact Hx.
  destruct (N.eq_dec (x `div` 10)%N 0%N) as [E | E].
  - rewrite E, pretty_N_go_0.
    eexists _, _. split; [reflexivity |].
    apply pretty_N_char_digit, N.mod_lt. discriminate.
  - apply IH; [apply N.div_lt; lia | apply N.neq_0_lt_0, E].
Qed.

Lemma pretty_Z_head (z : Z) :
  exists c rest,
    pretty z = String c rest /\ (is_digit c = true \/ c = "-"%char).
Proof.
  destruct z as [| p | p]; unfold pretty, pretty_Z.
  - eexists _, _. split; [reflexivity | left; reflexivity].
  - unfold pretty, pretty_positive, pretty, pretty_N.
    destruct (decide (N.pos p = 0%N)); [discriminate |].
    destruct (pretty_N_go_head (N.pos p) EmptyString) as (c & rest & -> & Hc);
      [lia |].
    eauto.
  - eexists _, _. split; [reflexivity | right; reflexivity].
Qed.

Lemma json_dumps_head v :
  is_float v = false ->
  exists c rest,
    json_dumps v = String c rest /\
    (is_digit c = true \/
     In c ["-"; dquote; "["; "{"; "n"; "t"; "f"]%char).
Proof.
  destruct v as [| [|] | z | f | s | l | d]; cbn; intros Hf; try discriminate;
    try (eexists _, _; split; [reflexivity | right; cbn; tauto]).
  destruct (pretty_Z_head z) as (c & rest & -> & [Hc | ->]);
    eexists _, _; (split; [reflexivity |]); [left; exact Hc | right; cbn; tauto].
Qed.

(** The text of a success is never one of the fixed messages: for every
    value [v] that is not a float, [json.dumps(v)] differs from each
    validation message and from each failure message, since it starts with
    a digit, a minus sign, a quote, a bracket, a brace or a lower-case
    letter. *)
Theorem success_text_is_not_a_message (v : pyval) (msg : string) :
  is_float v = false ->
  In msg (validation_messages ++ failure_messages) ->
  json_dumps v <> msg.
Proof.
  intros Hf Hin Heq.
  destruct (json_dumps_head v Hf) as (c & rest & Hv & Hc).
  rewrite Hv in Heq. subst msg. cbn in Hin.
  repeat (destruct Hin as [Hin | Hin];
          [injection Hin as <- _; cbn in Hc;
           destruct Hc as [Hc | Hc]; [discriminate |];
           repeat (destruct Hc as [Hc | Hc]; [discriminate |]);
           destruct Hc |]).
  destruct Hin.
Qed.

Lemma success_text_is_not_a_message_witness :
  json_dumps (PList []) <> "Failed to crawl URL".
Proof.
  apply (success_text_is_not_a_message (PList []) "Failed to crawl URL").
  - reflexivity.
  - vm_compute. tauto.
Defined.
